(** * PlatformTools (src/platform/PlatformTools.ts)

    A shallow embedding of the static class [PlatformTools]: the module
    loader [load] with its switch of explicit [require] statements and its
    [catch] handler, the path, file-system and environment wrappers, and
    the console helpers.  Everything the class calls but does not define
    (Node's [require], [path], [fs], [process], [dotenv], [chalk],
    [cli-highlight], [console]) is a field of the record [Host]. *)

From Stdlib Require Import String Ascii List Arith Lia.
Import ListNotations.
Local Open Scope string_scope.
Local Open Scope list_scope.

(** ** JavaScript values and completions *)

(** The values the class handles.  Objects are opaque to the class: it
    only passes them on, so an object is its reference. *)
Inductive JsValue : Type :=
| JsUndefined
| JsNull
| JsBoolean (b : bool)
| JsString (s : string)
| JsObject (ref : nat)
| JsError (ctor : string) (message : string).

(** How a call completes: it returns a value or throws one. *)
Inductive Completion (A : Type) : Type :=
| Normal (a : A)
| Throw (e : JsValue).
Arguments Normal {A} a.
Arguments Throw {A} e.

(** [if (v)] on a value of the model. *)
Definition truthy (v : JsValue) : bool :=
  match v with
  | JsUndefined | JsNull => false
  | JsBoolean b => b
  | JsString s => negb (String.eqb s EmptyString)
  | JsObject _ | JsError _ _ => true
  end.

(** The settlement of the promise [writeFile] returns. *)
Inductive Promise : Type :=
| Fulfilled
| Rejected (reason : JsValue).

(** ** The host *)

(** A chain of chalk styles, [chalk.gray.underline] being
    [["gray"; "underline"]]. *)
Definition ChalkStyle : Type := list string.

(** The [Theme] handed to cli-highlight: token kind and its style. *)
Definition Theme : Type := list (string * ChalkStyle).

Record HighlightOptions : Type := mkHighlightOptions {
  opt_theme : option Theme;
  opt_language : string
}.

(** What the class calls and does not define.  The functions of [fs],
    [dotenv] and [require] run on the host's state and return or throw;
    [process.cwd()], [process.platform], [process.env] and [path.resolve]
    read that state; [path.normalize], [path.extname] and chalk are
    functions of their string arguments. *)
Record Host : Type := mkHost {
  W : Type;                                                (* host state *)
  host_global : W -> JsValue;                              (* global *)
  host_require : string -> W -> Completion JsValue * W;    (* require(id) *)
  process_cwd : W -> string;                               (* process.cwd() *)
  process_platform : W -> string;                          (* process.platform *)
  process_env : W -> string -> JsValue;                    (* process.env[name] *)
  path_normalize : string -> string;                       (* path.normalize *)
  path_extname : string -> string;                         (* path.extname *)
  path_resolve : W -> string -> string;                    (* path.resolve *)
  fs_existsSync : string -> W -> bool;
  fs_readFileSync : string -> W -> Completion JsValue * W;
  fs_appendFileSync : string -> JsValue -> W -> Completion JsValue * W;
  fs_writeFile : string -> JsValue -> W -> JsValue * W;    (* the callback's err *)
  dotenv_config : string -> W -> Completion JsValue * W;   (* dotenv.config({path}) *)
  chalk : ChalkStyle -> JsValue -> string;
  highlight : string -> HighlightOptions -> Completion string;
  console_log : list JsValue -> W -> W;
  console_error : list JsValue -> W -> W
}.

(** The running platform, the type of the static field [type]. *)
Inductive Platform : Type := browser | node.

Section Facade.

Variable h : Host.

(** The state a call runs in: the class's one static field, the host's
    state, and the ids handed to [require] so far, most recent first. *)
Record State : Type := mkState {
  type : Platform;
  host : W h;
  required : list string
}.

(** The state at class initialisation: [static type = "node"]. *)
Definition init (w : W h) : State :=
  {| type := node; host := w; required := [] |}.

(** Calls are state-passing computations that return or throw. *)
Definition M (A : Type) : Type := State -> Completion A * State.

Definition ret {A} (a : A) : M A := fun st => (Normal a, st).

Definition throw {A} (e : JsValue) : M A := fun st => (Throw e, st).

Definition bind {A B} (m : M A) (k : A -> M B) : M B :=
  fun st =>
    match m st with
    | (Normal a, st') => k a st'
    | (Throw e, st') => (Throw e, st')
    end.

(** [try { m } catch (err) { handler err }] *)
Definition try_catch {A} (m : M A) (handler : JsValue -> M A) : M A :=
  fun st =>
    match m st with
    | (Normal a, st') => (Normal a, st')
    | (Throw e, st') => handler e st'
    end.

(** A host call that may change the host's state. *)
Definition call {A} (f : W h -> Completion A * W h) : M A :=
  fun st =>
    let (r, w') := f (host st) in
    (r, {| type := type st; host := w'; required := required st |}).

(** A host call that only reads the host's state. *)
Definition read {A} (f : W h -> A) : M A :=
  fun st => (Normal (f (host st)), st).

(** A host call that returns nothing and does not throw. *)
Definition effect (f : W h -> W h) : M JsValue :=
  fun st =>
    (Normal JsUndefined,
     {| type := type st; host := f (host st); required := required st |}).

(** [require(id)], recorded in [required]. *)
Definition require (id : string) : M JsValue :=
  fun st =>
    let (r, w') := host_require h id (host st) in
    (r, {| type := type st; host := w'; required := id :: required st |}).

(** A host function that touches no state. *)
Definition pure_call {A} (c : Completion A) : M A := fun st => (c, st).

Notation "x <- m ;; k" := (bind m (fun x => k))
  (at level 61, m at next level, right associativity).
Notation "m ;;; k" := (bind m (fun _ => k))
  (at level 61, right associativity).

(** ** [load] *)

(** The switch of [load]: each case label with the id its explicit
    [require] statement names, in source order. *)
Definition cases : list (string * string) :=
  [ ("spanner", "@google-cloud/spanner");
    ("mongodb", "mongodb");
    ("@sap/hana-client", "@sap/hana-client");
    ("hdb-pool", "hdb-pool");
    ("mysql", "mysql");
    ("mysql2", "mysql2");
    ("mariadb", "mariadb/callback");
    ("oracledb", "oracledb");
    ("pg", "pg");
    ("pg-native", "pg-native");
    ("pg-query-stream", "pg-query-stream");
    ("typeorm-aurora-data-api-driver", "typeorm-aurora-data-api-driver");
    ("redis", "redis");
    ("ioredis", "ioredis");
    ("better-sqlite3", "better-sqlite3");
    ("sqlite3", "sqlite3");
    ("sql.js", "sql.js");
    ("mssql", "mssql");
    ("react-native-sqlite-storage", "react-native-sqlite-storage") ].

(** [switch (name)]: the first case whose label is strictly equal to
    [name], if any. *)
Fixpoint switch (name : string) (cs : list (string * string)) : option string :=
  match cs with
  | [] => None
  | (label, id) :: cs' => if String.eqb name label then Some id else switch name cs'
  end.

(** The argument of the [require] in the [catch] handler:
    [path.resolve(process.cwd() + "/node_modules/" + name)]. *)
Definition fallback_path (name : string) (w : W h) : string :=
  path_resolve h w ((process_cwd h w ++ "/node_modules/") ++ name).

(** The value thrown after the [try] statement. *)
Definition InvalidPackage (name : string) : JsValue :=
  JsError "TypeError" ("Invalid Package for PlatformTools.load: " ++ name).

(** The [try] statement of [load].  [Some v] stands for [return v];
    [None] for leaving the statement without a [return], which is what
    the switch does when no case matches. *)
Definition load_try (name : string) : M (option JsValue) :=
  try_catch
    (match switch name cases with
     | Some id => v <- require id ;; ret (Some v)
     | None => ret None
     end)
    (fun err =>
       p <- read (fallback_path name) ;;
       v <- require p ;;
       ret (Some v)).

Definition load (name : string) : M JsValue :=
  r <- load_try name ;;
  match r with
  | Some v => ret v
  | None => throw (InvalidPackage name)
  end.

(** ** The other operations *)

Definition getGlobalVariable : M JsValue := read (host_global h).

(** [s.replace(/\\/g, "/")] *)
Fixpoint replace_backslashes (s : string) : string :=
  match s with
  | EmptyString => EmptyString
  | String c s' =>
      String (if Ascii.eqb c "\"%char then "/"%char else c) (replace_backslashes s')
  end.

Definition pathNormalize (pathStr : string) : M string :=
  let normalizedPath := path_normalize h pathStr in
  platform <- read (process_platform h) ;;
  let normalizedPath :=
    if String.eqb platform "win32"
    then replace_backslashes normalizedPath
    else normalizedPath in
  ret normalizedPath.

Definition pathExtname (pathStr : string) : M string :=
  ret (path_extname h pathStr).

Definition pathResolve (pathStr : string) : M string :=
  read (fun w => path_resolve h w pathStr).

Definition fileExist (pathStr : string) : M bool :=
  read (fs_existsSync h pathStr).

Definition readFileSync (filename : string) : M JsValue :=
  call (fs_readFileSync h filename).

Definition appendFileSync (filename : string) (data : JsValue) : M JsValue :=
  call (fs_appendFileSync h filename data) ;;; ret JsUndefined.

(** The promise is settled by the callback of [fs.writeFile]: rejected
    when [err] is truthy, fulfilled otherwise. *)
Definition writeFile (path : string) (data : JsValue) : M Promise :=
  fun st =>
    let (err, w') := fs_writeFile h path data (host st) in
    (Normal (if truthy err then Rejected err else Fulfilled),
     {| type := type st; host := w'; required := required st |}).

Definition dotenv (pathStr : string) : M JsValue :=
  call (dotenv_config h pathStr) ;;; ret JsUndefined.

Definition getEnvVariable (name : string) : M JsValue :=
  read (fun w => process_env h w name).

Definition sqlTheme : Theme :=
  [ ("keyword", ["blueBright"]);
    ("literal", ["blueBright"]);
    ("string", ["white"]);
    ("type", ["magentaBright"]);
    ("built_in", ["magentaBright"]);
    ("comment", ["gray"]) ].

Definition highlightSql (sql : string) : M string :=
  pure_call (highlight h sql {| opt_theme := Some sqlTheme; opt_language := "sql" |}).

Definition highlightJson (json : string) : M string :=
  pure_call (highlight h json {| opt_theme := None; opt_language := "json" |}).

Definition logInfo (prefix : string) (info : JsValue) : M JsValue :=
  effect (console_log h [JsString (chalk h ["gray"; "underline"] (JsString prefix)); info]).

Definition logError (prefix : string) (error : JsValue) : M JsValue :=
  effect (console_log h [JsString (chalk h ["underline"; "red"] (JsString prefix)); error]).

Definition logWarn (prefix : string) (warning : JsValue) : M JsValue :=
  effect (console_log h [JsString (chalk h ["underline"; "yellow"] (JsString prefix)); warning]).

Definition log (message : string) : M JsValue :=
  effect (console_log h [JsString (chalk h ["underline"] (JsString message))]).

Definition info (info : JsValue) : M string := ret (chalk h ["gray"] info).

Definition error (error : JsValue) : M string := ret (chalk h ["red"] error).

Definition warn (message : string) : M string :=
  ret (chalk h ["yellow"] (JsString message)).

Definition logCmdErr (prefix : string) (err : JsValue) : M JsValue :=
  effect (console_log h [JsString (chalk h ["black"; "bgRed"] (JsString prefix))]) ;;;
  if truthy err then effect (console_error h [err]) else ret JsUndefined.

(** ** Sequences of calls *)

(** One call of an operation of the class with its arguments. *)
Inductive Call : Type :=
| CallGetGlobalVariable
| CallLoad (name : string)
| CallPathNormalize (pathStr : string)
| CallPathExtname (pathStr : string)
| CallPathResolve (pathStr : string)
| CallFileExist (pathStr : string)
| CallReadFileSync (filename : string)
| CallAppendFileSync (filename : string) (data : JsValue)
| CallWriteFile (path : string) (data : JsValue)
| CallDotenv (pathStr : string)
| CallGetEnvVariable (name : string)
| CallHighlightSql (sql : string)
| CallHighlightJson (json : string)
| CallLogInfo (prefix : string) (info : JsValue)
| CallLogError (prefix : string) (error : JsValue)
| CallLogWarn (prefix : string) (warning : JsValue)
| CallLog (message : string)
| CallInfo (info : JsValue)
| CallError (error : JsValue)
| CallWarn (message : string)
| CallLogCmdErr (prefix : string) (err : JsValue).

(** The state a call leaves, whether it returned or threw. *)
Definition after {A} (m : M A) (st : State) : State := snd (m st).

Definition exec (c : Call) : State -> State :=
  match c with
  | CallGetGlobalVariable => after getGlobalVariable
  | CallLoad name => after (load name)
  | CallPathNormalize p => after (pathNormalize p)
  | CallPathExtname p => after (pathExtname p)
  | CallPathResolve p => after (pathResolve p)
  | CallFileExist p => after (fileExist p)
  | CallReadFileSync f => after (readFileSync f)
  | CallAppendFileSync f d => after (appendFileSync f d)
  | CallWriteFile p d => after (writeFile p d)
  | CallDotenv p => after (dotenv p)
  | CallGetEnvVariable n => after (getEnvVariable n)
  | CallHighlightSql s => after (highlightSql s)
  | CallHighlightJson s => after (highlightJson s)
  | CallLogInfo p i => after (logInfo p i)
  | CallLogError p e => after (logError p e)
  | CallLogWarn p w => after (logWarn p w)
  | CallLog m => after (log m)
  | CallInfo i => after (info i)
  | CallError e => after (error e)
  | CallWarn m => after (warn m)
  | CallLogCmdErr p e => after (logCmdErr p e)
  end.

(** The calls of a program in order, from left to right. *)
Definition run (cs : list Call) (st : State) : State := fold_left (fun s c => exec c s) cs st.

End Facade.

Arguments type {h} s.
Arguments host {h} s.
Arguments required {h} s.
Arguments after {h A} m st.

(** ** The environment staying as it is *)

Section Environment.

Variable h : Host.

(** Two host states in which [load] finds the same things: every
    [require] completes alike, and so do [process.cwd()] and
    [path.resolve]. *)
Definition same_env (w w' : W h) : Prop :=
  (forall id, fst (host_require h id w') = fst (host_require h id w)) /\
  process_cwd h w' = process_cwd h w /\
  (forall p, path_resolve h w' p = path_resolve h w p).


End Environment.

(** ** Hosts to run the class on *)

(** What [require] throws for an id it cannot find. *)
Definition ModuleNotFound (id : string) : JsValue :=
  JsError "Error" ("Cannot find module '" ++ id ++ "'").

Fixpoint lookup (id : string) (installed : list (string * JsValue)) : option JsValue :=
  match installed with
  | [] => None
  | (k, v) :: rest => if String.eqb id k then Some v else lookup id rest
  end.

(** What the file-system calls of the sample hosts fail with. *)
Definition fsError : JsValue := JsError "Error" "EACCES: permission denied".

(** A host whose [require] finds the modules of [installed] by their id
    and keeps the ids it has loaded as its state; the working directory
    is [cwd], and [path.resolve] is only ever given normalised absolute
    paths, which it returns as they are.  Files cannot be read, written
    or parsed: those calls fail with [fsError]. *)
Definition sample_host (installed : list (string * JsValue)) (cwd platform : string)
    (normalize : string -> string) : Host :=
  {| W := list string;
     host_global := fun _ => JsObject 0;
     host_require := fun id w =>
       match lookup id installed with
       | Some v => (Normal v, id :: w)
       | None => (Throw (ModuleNotFound id), w)
       end;
     process_cwd := fun _ => cwd;
     process_platform := fun _ => platform;
     process_env := fun _ _ => JsUndefined;
     path_normalize := normalize;
     path_extname := fun _ => EmptyString;
     path_resolve := fun _ p => p;
     fs_existsSync := fun _ _ => false;
     fs_readFileSync := fun _ w => (Throw fsError, w);
     fs_appendFileSync := fun _ _ w => (Throw fsError, w);
     fs_writeFile := fun _ _ w => (fsError, w);
     dotenv_config := fun _ w => (Throw fsError, w);
     chalk := fun _ v => match v with JsString s => s | _ => EmptyString end;
     highlight := fun s _ => Normal s;
     console_log := fun _ w => w;
     console_error := fun _ w => w |}.

(** Nothing installed anywhere. *)
Definition bare_host : Host := sample_host [] "/srv/app" "linux" (fun p => p).

(** A module is present under the working directory's [node_modules]
    under a name that is no case of the switch. *)
Definition local_host : Host :=
  sample_host [("/srv/app/node_modules/totally-unknown-name", JsObject 7)]
    "/srv/app" "linux" (fun p => p).

(** The drivers are installed where the explicit [require]s find them;
    the root of the mariadb package and its callback entry point are two
    modules. *)
Definition drivers_host : Host :=
  sample_host
    [("pg", JsObject 1); ("mariadb", JsObject 2); ("mariadb/callback", JsObject 3)]
    "/srv/app" "linux" (fun p => p).

(** mysql2 cannot be loaded by its name but a copy lies under the
    working directory. *)
Definition hoisted_host : Host :=
  sample_host [("/srv/app/node_modules/mysql2", JsObject 4)]
    "/srv/app" "linux" (fun p => p).

(** A Windows host. *)
Definition win_host : Host := sample_host [] "C:/app" "win32" (fun p => p).

(** The package root of mariadb lies under the working directory;
    nothing can be loaded by its name. *)
Definition mariadb_local_host : Host :=
  sample_host [("/srv/app/node_modules/mariadb", JsObject 2)]
    "/srv/app" "linux" (fun p => p).

(** [bare_host] with another [dotenv.config]. *)
Definition with_dotenv_config
    (config : string -> W bare_host -> Completion JsValue * W bare_host) : Host :=
  {| W := W bare_host;
     host_global := host_global bare_host;
     host_require := host_require bare_host;
     process_cwd := process_cwd bare_host;
     process_platform := process_platform bare_host;
     process_env := process_env bare_host;
     path_normalize := path_normalize bare_host;
     path_extname := path_extname bare_host;
     path_resolve := path_resolve bare_host;
     fs_existsSync := fs_existsSync bare_host;
     fs_readFileSync := fs_readFileSync bare_host;
     fs_appendFileSync := fs_appendFileSync bare_host;
     fs_writeFile := fs_writeFile bare_host;
     dotenv_config := config;
     chalk := chalk bare_host;
     highlight := highlight bare_host;
     console_log := console_log bare_host;
     console_error := console_error bare_host |}.

(** A host whose [dotenv.config] does not throw for a file it cannot
    read: it returns an object, here the one of reference 9, in which
    the failure is reported. *)
Definition reporting_dotenv_host : Host :=
  with_dotenv_config (fun _ w => (Normal (JsObject 9), w)).

(** ** The promise of [writeFile], step by step *)

(** A promise is pending until one of the two functions its executor
    receives is called; calls after the first change nothing. *)
Inductive PromiseState : Type :=
| Pending
| Settled (p : Promise).

(** [ok()] *)
Definition ok (s : PromiseState) : PromiseState :=
  match s with
  | Pending => Settled Fulfilled
  | Settled _ => s
  end.

(** [fail(reason)] *)
Definition fail (reason : JsValue) (s : PromiseState) : PromiseState :=
  match s with
  | Pending => Settled (Rejected reason)
  | Settled _ => s
  end.

(** The callback [writeFile] hands to [fs.writeFile]:
    [(err) => { if (err) fail(err); ok() }]. *)
Definition writeFile_callback (err : JsValue) (s : PromiseState) : PromiseState :=
  let s := if truthy err then fail err s else s in
  ok s.

(** ** Calls of [load] among other calls *)

Definition is_load (c : Call) : bool :=
  match c with
  | CallLoad _ => true
  | _ => false
  end.

(** * Properties *)

Section LoadProperties.

Variable h : Host.

(** ** The three ways through [load] *)

Lemma load_no_case (name : string) (st : State h) :
  switch name cases = None ->
  load h name st = (Throw (InvalidPackage name), st).
Proof.
  intros Hsw. unfold load, load_try, bind, try_catch. rewrite Hsw. reflexivity.
Qed.

Lemma load_case_returns (name id : string) (st : State h) (v : JsValue) (w1 : W h) :
  switch name cases = Some id ->
  host_require h id (host st) = (Normal v, w1) ->
  load h name st =
    (Normal v, {| type := type st; host := w1; required := id :: required st |}).
Proof.
  intros Hsw Hreq. unfold load, load_try, bind, try_catch, require.
  rewrite Hsw, Hreq. reflexivity.
Qed.

Lemma load_case_throws (name id : string) (st : State h) (e : JsValue) (w1 : W h) :
  switch name cases = Some id ->
  host_require h id (host st) = (Throw e, w1) ->
  load h name st =
    (fst (host_require h (fallback_path h name w1) w1),
     {| type := type st;
        host := snd (host_require h (fallback_path h name w1) w1);
        required := fallback_path h name w1 :: id :: required st |}).
Proof.
  intros Hsw Hreq. unfold load, load_try, bind, try_catch, require, read.
  rewrite Hsw, Hreq. cbn.
  destruct (host_require h (fallback_path h name w1) w1) as [[v | e'] w2]; reflexivity.
Qed.

(** Splits a goal about [load h name st] along the three ways, leaving
    the equation of [load] rewritten in each. *)
Ltac load_cases name st :=
  let id := fresh "id" in
  let Hsw := fresh "Hsw" in
  let Hreq := fresh "Hreq" in
  let v := fresh "v" in
  let e := fresh "e" in
  let w1 := fresh "w1" in
  destruct (switch name cases) as [id |] eqn:Hsw;
  [ destruct (host_require h id (host st)) as [[v | e] w1] eqn:Hreq;
    [ rewrite (load_case_returns name id st v w1 Hsw Hreq)
    | rewrite (load_case_throws name id st e w1 Hsw Hreq) ]
  | rewrite (load_no_case name st Hsw) ].


(** ** [same_env] is an equivalence *)

Lemma same_env_refl (w : W h) : same_env h w w.
Proof. repeat split. Qed.



(** ** Claims on [load] *)

(** C1 (as the code has it).  A name that is no case of the switch makes
    [load] throw the Invalid Package [TypeError] carrying the name at
    once: the state is left as it was, so neither the host nor the list
    of ids handed to [require] has changed and no load, the one of the
    [catch] handler included, was attempted. *)
Theorem load_unlisted_throws_without_loading (name : string) (st : State h) :
  switch name cases = None ->
  fst (load h name st) = Throw (InvalidPackage name) /\
  after (load h name) st = st /\
  required (after (load h name) st) = required st.
Proof.
  intros Hsw. unfold after. rewrite (load_no_case name st Hsw). cbn. auto.
Qed.


(** C2 (as the code has it).  [load] makes one error of its own, the
    Invalid Package [TypeError] carrying the name, and throws it for the
    names that are no case of the switch, leaving the state as it was:
    nothing was handed to [require].  For a case it returns the value of
    the explicit [require] when that returns, having made that one
    [require]; otherwise it makes the [require] of the [catch] handler
    and completes as that one does: with its value, or with the error
    that [require] throws.  No other value is ever returned and no other
    [require] is made. *)
Theorem load_outcome (name : string) (st : State h) :
  load h name st =
    match switch name cases with
    | None => (Throw (InvalidPackage name), st)
    | Some id =>
        match host_require h id (host st) with
        | (Normal v, w1) =>
            (Normal v, {| type := type st; host := w1; required := id :: required st |})
        | (Throw _, w1) =>
            let p := path_resolve h w1 ((process_cwd h w1 ++ "/node_modules/") ++ name) in
            (fst (host_require h p w1),
             {| type := type st;
                host := snd (host_require h p w1);
                required := p :: id :: required st |})
        end
    end.
Proof.
  load_cases name st; reflexivity.
Qed.

(** C3.  When the explicit [require] of a case throws, whatever it
    throws, [load] goes on to the [require] of the [catch] handler and
    completes as that one does; the thrown value [e] is dropped.  When
    the second [require] returns a value, [load] returns it. *)
Theorem load_falls_back_when_case_throws
    (name id : string) (st : State h) (e : JsValue) (w1 : W h) :
  switch name cases = Some id ->
  host_require h id (host st) = (Throw e, w1) ->
  let p := path_resolve h w1 ((process_cwd h w1 ++ "/node_modules/") ++ name) in
  fst (load h name st) = fst (host_require h p w1) /\
  required (after (load h name) st) = p :: id :: required st /\
  (forall v, fst (host_require h p w1) = Normal v -> fst (load h name st) = Normal v).
Proof.
  intros Hsw Hreq p. unfold after.
  rewrite (load_case_throws name id st e w1 Hsw Hreq). cbn.
  repeat split; auto.
Qed.

(** C4.  When the explicit [require] of a case returns a value that is
    neither [null] nor [undefined], [load] returns that value, which is
    neither, and throws nothing; only that one [require] was made. *)
Theorem load_returns_loaded_case
    (name id : string) (st : State h) (v : JsValue) (w1 : W h) :
  switch name cases = Some id ->
  host_require h id (host st) = (Normal v, w1) ->
  v <> JsNull -> v <> JsUndefined ->
  fst (load h name st) = Normal v /\
  fst (load h name st) <> Normal JsNull /\
  fst (load h name st) <> Normal JsUndefined /\
  (forall e, fst (load h name st) <> Throw e) /\
  required (after (load h name) st) = id :: required st.
Proof.
  intros Hsw Hreq Hnull Hundef. unfold after.
  rewrite (load_case_returns name id st v w1 Hsw Hreq). cbn.
  repeat split; congruence.
Qed.

(** C6.  The ids [load] hands to [require]: none for a name that is no
    case; the id of the case alone when that [require] returns; and when
    it throws, then the id of the case and after it exactly
    [path.resolve(process.cwd() + "/node_modules/" + name)]. *)
Theorem load_required_ids (name : string) (st : State h) :
  required (after (load h name) st) =
    match switch name cases with
    | None => required st
    | Some id =>
        match host_require h id (host st) with
        | (Normal _, _) => id :: required st
        | (Throw _, w1) =>
            path_resolve h w1 ((process_cwd h w1 ++ "/node_modules/") ++ name)
              :: id :: required st
        end
    end.
Proof.
  unfold after. load_cases name st; reflexivity.
Qed.

(** C9.  The case ["mariadb"] requires ["mariadb/callback"]: when that
    module loads, [load "mariadb"] returns its value, the one id handed
    to [require] is ["mariadb/callback"], and on a host where the root
    of the package is another value, what [load] returns is not the
    root. *)
Theorem load_mariadb_is_callback (st : State h) (v : JsValue) (w1 : W h) :
  host_require h "mariadb/callback" (host st) = (Normal v, w1) ->
  fst (load h "mariadb" st) = Normal v /\
  required (after (load h "mariadb") st) = "mariadb/callback" :: required st /\
  (forall root, fst (host_require h "mariadb" (host st)) = Normal root ->
                root <> v -> fst (load h "mariadb" st) <> Normal root).
Proof.
  intros Hreq. unfold after.
  rewrite (load_case_returns "mariadb" "mariadb/callback" st v w1 eq_refl Hreq). cbn.
  repeat split; auto. intros root _ Hne Heq. apply Hne. congruence.
Qed.


End LoadProperties.

Section WrapperProperties.

Variable h : Host.

(** ** [replace_backslashes] *)

Lemma replace_backslashes_length (s : string) :
  String.length (replace_backslashes s) = String.length s.
Proof.
  induction s as [| c s IH]; cbn; [reflexivity | now rewrite IH].
Qed.

Lemma replace_backslashes_get (s : string) (i : nat) :
  String.get i (replace_backslashes s) =
  option_map (fun c => if Ascii.eqb c "\"%char then "/"%char else c) (String.get i s).
Proof.
  revert i. induction s as [| c s IH]; intros [| i]; cbn; auto.
Qed.

Lemma replace_backslashes_clean (s : string) (i : nat) :
  String.get i (replace_backslashes s) <> Some "\"%char.
Proof.
  rewrite replace_backslashes_get.
  destruct (String.get i s) as [c |]; cbn; [| discriminate].
  destruct (Ascii.eqb c "\"%char) eqn:Hc; [discriminate |].
  intros Heq. injection Heq as ->. discriminate.
Qed.

(** ** Claims on the wrappers *)

(** C7 (as the code has it).  What [fs.readFileSync],
    [fs.appendFileSync] and [dotenv.config] throw is thrown by
    [readFileSync], [appendFileSync] and [dotenv] as it is, and the host
    is left in the state its function left.  [readFileSync] returns the
    buffer read as it is and [getEnvVariable] returns
    [process.env[name]] as it is.  [appendFileSync] and [dotenv] return
    [undefined] whatever the host's function returned: the value of
    [dotenv.config] is dropped, and with it a failure that value
    reports. *)
Theorem wrappers_pass_host_completion
    (filename pathStr name : string) (data : JsValue) (st : State h) :
  (fst (readFileSync h filename st) = fst (fs_readFileSync h filename (host st)) /\
   host (after (readFileSync h filename) st) = snd (fs_readFileSync h filename (host st))) /\
  (fst (appendFileSync h filename data st) =
     match fst (fs_appendFileSync h filename data (host st)) with
     | Normal _ => Normal JsUndefined
     | Throw e => Throw e
     end /\
   host (after (appendFileSync h filename data) st) =
     snd (fs_appendFileSync h filename data (host st))) /\
  (fst (dotenv h pathStr st) =
     match fst (dotenv_config h pathStr (host st)) with
     | Normal _ => Normal JsUndefined
     | Throw e => Throw e
     end /\
   host (after (dotenv h pathStr) st) = snd (dotenv_config h pathStr (host st))) /\
  (fst (getEnvVariable h name st) = Normal (process_env h (host st) name) /\
   after (getEnvVariable h name) st = st).
Proof.
  unfold after, readFileSync, appendFileSync, dotenv, getEnvVariable, bind, call, read, ret.
  repeat split.
  - now destruct (fs_readFileSync h filename (host st)).
  - now destruct (fs_readFileSync h filename (host st)).
  - now destruct (fs_appendFileSync h filename data (host st)) as [[v | e] w].
  - now destruct (fs_appendFileSync h filename data (host st)) as [[v | e] w].
  - now destruct (dotenv_config h pathStr (host st)) as [[v | e] w].
  - now destruct (dotenv_config h pathStr (host st)) as [[v | e] w].
Qed.

(** C8.  [pathNormalize] returns and changes no state.  When
    [process.platform] is ["win32"] the returned string is
    [path.normalize(pathStr)] with each backslash turned into a slash
    and every other character kept in its place, so it holds no
    backslash; on any other platform it is [path.normalize(pathStr)]
    itself. *)
Theorem pathNormalize_result (pathStr : string) (st : State h) :
  exists r,
    pathNormalize h pathStr st = (Normal r, st) /\
    if String.eqb (process_platform h (host st)) "win32"
    then String.length r = String.length (path_normalize h pathStr) /\
         (forall i, String.get i r =
                    option_map (fun c => if Ascii.eqb c "\"%char then "/"%char else c)
                               (String.get i (path_normalize h pathStr))) /\
         (forall i, String.get i r <> Some "\"%char)
    else r = path_normalize h pathStr.
Proof.
  unfold pathNormalize, bind, read, ret.
  destruct (String.eqb (process_platform h (host st)) "win32") eqn:Hp;
    eexists; (split; [reflexivity |]); rewrite ?Hp.
  - split; [apply replace_backslashes_length |].
    split; intro i; [apply replace_backslashes_get | apply replace_backslashes_clean].
  - reflexivity.
Qed.

End WrapperProperties.

Section TypeField.

Variable h : Host.

(** ** The static field [type] *)

Lemma exec_type (c : Call) (st : State h) : type (exec h c st) = type st.
Proof.
  destruct c; cbn [exec]; unfold after;
    unfold getGlobalVariable, pathNormalize, pathExtname, pathResolve, fileExist,
      readFileSync, appendFileSync, writeFile, dotenv, getEnvVariable, highlightSql,
      highlightJson, logInfo, logError, logWarn, log, info, error, warn, logCmdErr,
      bind, call, read, effect, pure_call, ret;
    cbn [fst snd type].
  - reflexivity.
  - destruct (switch name cases) as [id |] eqn:Hsw.
    + destruct (host_require h id (host st)) as [[v | e] w1] eqn:Hreq.
      * now rewrite (load_case_returns h name id st v w1 Hsw Hreq).
      * now rewrite (load_case_throws h name id st e w1 Hsw Hreq).
    + now rewrite (load_no_case h name st Hsw).
  - reflexivity.
  - reflexivity.
  - reflexivity.
  - reflexivity.
  - now destruct (fs_readFileSync h filename (host st)) as [[v | e] w].
  - now destruct (fs_appendFileSync h filename data (host st)) as [[v | e] w].
  - now destruct (fs_writeFile h path data (host st)) as [err w].
  - now destruct (dotenv_config h pathStr (host st)) as [[v | e] w].
  - reflexivity.
  - reflexivity.
  - reflexivity.
  - reflexivity.
  - reflexivity.
  - reflexivity.
  - reflexivity.
  - reflexivity.
  - reflexivity.
  - reflexivity.
  - now destruct (truthy err).
Qed.

(** C10.  The field [type] is ["node"] at initialisation, and whatever
    calls of whatever operations of the class follow, with whatever
    arguments and on whatever host, it still is. *)
Theorem type_stays_node (w : W h) (cs : list Call) :
  type (init h w) = node /\ type (run h cs (init h w)) = node.
Proof.
  split; [reflexivity |].
  assert (Hrun : forall st : State h, type (run h cs st) = type st).
  { induction cs as [| c cs IH]; intro st; cbn; [reflexivity |].
    unfold run in IH. now rewrite IH, exec_type. }
  now rewrite Hrun.
Qed.

End TypeField.

(** * The sample hosts *)


(** ** Runs of [load] *)

(** ["pg"] installed: the value of the module. *)
Example load_pg_installed :
  load drivers_host "pg" (init drivers_host []) =
  (Normal (JsObject 1), mkState drivers_host node ["pg"] ["pg"]).
Proof. reflexivity. Qed.

(** A name that is no case, and nothing under the working directory. *)
Example load_unknown_name :
  load bare_host "totally-unknown-name" (init bare_host []) =
  (Throw (JsError "TypeError" "Invalid Package for PlatformTools.load: totally-unknown-name"),
   init bare_host []).
Proof. reflexivity. Qed.

(** ["mysql2"] not loadable by name, a copy under the working directory. *)
Example load_mysql2_hoisted :
  load hoisted_host "mysql2" (init hoisted_host []) =
  (Normal (JsObject 4),
   mkState hoisted_host node
     ["/srv/app/node_modules/mysql2"]
     ["/srv/app/node_modules/mysql2"; "mysql2"]).
Proof. reflexivity. Qed.

(** Backslashes on a Windows host and on a Linux host. *)
Example pathNormalize_win32 :
  fst (pathNormalize win_host "C:\app\src\entity" (init win_host [])) =
  Normal "C:/app/src/entity".
Proof. reflexivity. Qed.

Example pathNormalize_linux :
  fst (pathNormalize bare_host "src\entity" (init bare_host [])) = Normal "src\entity".
Proof. reflexivity. Qed.

(** ** C1 *)

(** C1, the claim as written fails.  ["totally-unknown-name"] is no case
    of the switch and the module lies at the path the [catch] handler
    would require, where [require] returns it; yet [load] throws the
    Invalid Package error and hands nothing to [require]. *)
Lemma load_unlisted_skips_fallback :
  switch "totally-unknown-name" cases = None /\
  host_require local_host
    (fallback_path local_host "totally-unknown-name" []) [] =
    (Normal (JsObject 7), ["/srv/app/node_modules/totally-unknown-name"]) /\
  fst (load local_host "totally-unknown-name" (init local_host [])) =
    Throw (InvalidPackage "totally-unknown-name") /\
  required (after (load local_host "totally-unknown-name") (init local_host [])) = [].
Proof. repeat split. Qed.

Lemma load_unlisted_throws_without_loading_witness :
  switch "totally-unknown-name" cases = None /\
  (fst (load local_host "totally-unknown-name" (init local_host [])) =
     Throw (InvalidPackage "totally-unknown-name") /\
   after (load local_host "totally-unknown-name") (init local_host []) =
     init local_host [] /\
   required (after (load local_host "totally-unknown-name") (init local_host [])) =
     required (init local_host [])).
Proof.
  split; [reflexivity |].
  apply (load_unlisted_throws_without_loading local_host). reflexivity.
Defined.

(** ** C2 *)

(** C2, the claim as written fails.  ["pg"] is a case; with nothing
    installed both the explicit [require] and the one of the [catch]
    handler throw, and what [load] throws is the error of the second
    [require], not the Invalid Package error. *)
Lemma load_propagates_fallback_error :
  switch "pg" cases = Some "pg" /\
  host_require bare_host "pg" [] = (Throw (ModuleNotFound "pg"), []) /\
  host_require bare_host (fallback_path bare_host "pg" []) [] =
    (Throw (ModuleNotFound "/srv/app/node_modules/pg"), []) /\
  fst (load bare_host "pg" (init bare_host [])) =
    Throw (JsError "Error" "Cannot find module '/srv/app/node_modules/pg'") /\
  fst (load bare_host "pg" (init bare_host [])) <> Throw (InvalidPackage "pg").
Proof. repeat split. discriminate. Qed.

(** ** C3 *)

Lemma load_falls_back_when_case_throws_witness :
  switch "mysql2" cases = Some "mysql2" /\
  host_require hoisted_host "mysql2" (host (init hoisted_host [])) =
    (Throw (ModuleNotFound "mysql2"), []) /\
  (let p := path_resolve hoisted_host []
              ((process_cwd hoisted_host [] ++ "/node_modules/") ++ "mysql2") in
   fst (load hoisted_host "mysql2" (init hoisted_host [])) =
     fst (host_require hoisted_host p []) /\
   required (after (load hoisted_host "mysql2") (init hoisted_host [])) =
     p :: "mysql2" :: required (init hoisted_host []) /\
   (forall v, fst (host_require hoisted_host p []) = Normal v ->
              fst (load hoisted_host "mysql2" (init hoisted_host [])) = Normal v)).
Proof.
  split; [reflexivity |]. split; [reflexivity |].
  apply (load_falls_back_when_case_throws hoisted_host "mysql2" "mysql2"
           (init hoisted_host []) (ModuleNotFound "mysql2") []); reflexivity.
Defined.

(** ** C4 *)

Lemma load_returns_loaded_case_witness :
  switch "pg" cases = Some "pg" /\
  host_require drivers_host "pg" (host (init drivers_host [])) =
    (Normal (JsObject 1), ["pg"]) /\
  JsObject 1 <> JsNull /\
  JsObject 1 <> JsUndefined /\
  (fst (load drivers_host "pg" (init drivers_host [])) = Normal (JsObject 1) /\
   fst (load drivers_host "pg" (init drivers_host [])) <> Normal JsNull /\
   fst (load drivers_host "pg" (init drivers_host [])) <> Normal JsUndefined /\
   (forall e, fst (load drivers_host "pg" (init drivers_host [])) <> Throw e) /\
   required (after (load drivers_host "pg") (init drivers_host [])) =
     "pg" :: required (init drivers_host [])).
Proof.
  split; [reflexivity |]. split; [reflexivity |].
  split; [discriminate |]. split; [discriminate |].
  apply (load_returns_loaded_case drivers_host "pg" "pg" (init drivers_host [])
           (JsObject 1) ["pg"]); [reflexivity | reflexivity | discriminate | discriminate].
Defined.

(** ** C5 *)


(** ** C9 *)

Lemma load_mariadb_is_callback_witness :
  host_require drivers_host "mariadb/callback" (host (init drivers_host [])) =
    (Normal (JsObject 3), ["mariadb/callback"]) /\
  (fst (load drivers_host "mariadb" (init drivers_host [])) = Normal (JsObject 3) /\
   required (after (load drivers_host "mariadb") (init drivers_host [])) =
     "mariadb/callback" :: required (init drivers_host []) /\
   (forall root,
      fst (host_require drivers_host "mariadb" (host (init drivers_host []))) =
        Normal root ->
      root <> JsObject 3 ->
      fst (load drivers_host "mariadb" (init drivers_host [])) <> Normal root)).
Proof.
  split; [reflexivity |].
  apply (load_mariadb_is_callback drivers_host (init drivers_host [])
           (JsObject 3) ["mariadb/callback"]). reflexivity.
Defined.

(** * Further properties of [load] *)

Section SwitchTable.

(** ** The switch as a table *)

Lemma switch_In (name id : string) (cs : list (string * string)) :
  switch name cs = Some id -> In (name, id) cs.
Proof.
  induction cs as [| [label id'] cs IH]; cbn; [discriminate |].
  destruct (String.eqb_spec name label) as [-> | Hne].
  - intros [= ->]. now left.
  - intros Hsw. right. now apply IH.
Qed.

Lemma In_cases_switch (name id : string) :
  In (name, id) cases -> switch name cases = Some id.
Proof.
  unfold cases. cbn [In].
  intros H.
  repeat (destruct H as [H | H]; [injection H as <- <-; reflexivity |]).
  contradiction.
Qed.

Lemma case_id (name id : string) :
  switch name cases = Some id ->
  id = name \/
  (name = "spanner" /\ id = "@google-cloud/spanner") \/
  (name = "mariadb" /\ id = "mariadb/callback").
Proof.
  intros Hsw. apply switch_In in Hsw. unfold cases in Hsw. cbn [In] in Hsw.
  repeat (destruct Hsw as [Hsw | Hsw];
          [injection Hsw as <- <-; first [now left | right; now left | right; now right] |]).
  contradiction.
Qed.

Lemma append_inj_l (a x y : string) : (a ++ x)%string = (a ++ y)%string -> x = y.
Proof.
  induction a as [| c a IH]; cbn; [trivial |].
  intros [= H]. now apply IH.
Qed.

End SwitchTable.

Section MoreLoadProperties.

Variable h : Host.

(** X1.  The switch is a table: a name reaches the explicit [require] of
    an id exactly when the pair is one of the nineteen cases.  No case
    is hidden behind an earlier one with the same label. *)
Theorem switch_is_table (name id : string) :
  switch name cases = Some id <-> In (name, id) cases.
Proof.
  split; [apply switch_In | apply In_cases_switch].
Qed.

(** X2.  The id a case requires is the requested name itself, but for
    ["spanner"], which requires ["@google-cloud/spanner"], and
    ["mariadb"], which requires ["mariadb/callback"]. *)
Theorem case_requires_its_name (name id : string) :
  switch name cases = Some id ->
  (name <> "spanner" -> name <> "mariadb" -> id = name) /\
  (name = "spanner" -> id = "@google-cloud/spanner") /\
  (name = "mariadb" -> id = "mariadb/callback").
Proof.
  intros Hsw.
  destruct (case_id name id Hsw) as [-> | [[-> ->] | [-> ->]]].
  - repeat split; intros; subst; auto; cbn in Hsw; congruence.
  - repeat split; intros; congruence.
  - repeat split; intros; congruence.
Qed.

(** X3.  One call of [load] hands at most two ids to [require], and
    each of them is either one of the ids written in the switch or a
    path made by [path.resolve] from the working directory,
    ["/node_modules/"] and the name: the caller's string never reaches
    [require] in another way. *)
Theorem load_requires_only_known_ids (name : string) (st : State h) :
  exists ids,
    required (after (load h name) st) = ids ++ required st /\
    length ids <= 2 /\
    (forall id', In id' ids ->
       In id' (map snd cases) \/
       exists w1, id' = path_resolve h w1 ((process_cwd h w1 ++ "/node_modules/") ++ name)).
Proof.
  unfold after.
  destruct (switch name cases) as [id |] eqn:Hsw.
  - assert (Hid : In id (map snd cases)).
    { apply switch_In in Hsw. now apply (in_map snd) in Hsw. }
    destruct (host_require h id (host st)) as [[v | e] w1] eqn:Hreq.
    + rewrite (load_case_returns h name id st v w1 Hsw Hreq). cbn [snd required].
      exists [id]. split; [reflexivity |]. split; [cbn; lia |].
      intros id' [<- | []]. now left.
    + rewrite (load_case_throws h name id st e w1 Hsw Hreq). cbn [snd required].
      exists [fallback_path h name w1; id]. split; [reflexivity |]. split; [cbn; lia |].
      intros id' [<- | [<- | []]]; [right; now exists w1 | now left].
  - rewrite (load_no_case h name st Hsw). cbn [snd].
    exists []. split; [reflexivity |]. split; [cbn; lia |]. intros id' [].
Qed.

(** X4.  When the explicit [require] of a case throws, the path the
    [catch] handler resolves is built from the requested name, not from
    the id of the case.  It is the path of that id under
    [node_modules] for every case but ["spanner"] and ["mariadb"]:
    there the handler looks for [node_modules/spanner] and for the root
    [node_modules/mariadb]. *)
Theorem fallback_is_built_from_name
    (name id : string) (st : State h) (e : JsValue) (w1 : W h) :
  switch name cases = Some id ->
  host_require h id (host st) = (Throw e, w1) ->
  let root := (process_cwd h w1 ++ "/node_modules/")%string in
  required (after (load h name) st) =
    path_resolve h w1 (root ++ name)%string :: id :: required st /\
  ((root ++ name)%string = (root ++ id)%string <->
   name <> "spanner" /\ name <> "mariadb").
Proof.
  intros Hsw Hreq root. unfold after.
  rewrite (load_case_throws h name id st e w1 Hsw Hreq). cbn [snd required].
  split; [reflexivity |].
  destruct (case_id name id Hsw) as [-> | [[-> ->] | [-> ->]]].
  - split; [| reflexivity].
    intros _. split; intros ->; cbn in Hsw; discriminate.
  - split.
    + intros H. apply append_inj_l in H. discriminate.
    + intros [H _]. now contradiction H.
  - split.
    + intros H. apply append_inj_l in H. discriminate.
    + intros [_ H]. now contradiction H.
Qed.

(** X5.  What [load] throws for a name that is no case is a
    [TypeError] whose message is the fixed text followed by that name;
    so for two such names, in whatever states, [load] completes alike
    only when the names are the same. *)
Theorem load_error_identifies_name (n m : string) (st st' : State h) :
  switch n cases = None ->
  switch m cases = None ->
  fst (load h n st) =
    Throw (JsError "TypeError" ("Invalid Package for PlatformTools.load: " ++ n)) /\
  (fst (load h n st) = fst (load h m st') <-> n = m).
Proof.
  intros Hn Hm.
  rewrite (load_no_case h n st Hn), (load_no_case h m st' Hm). cbn [fst].
  split; [reflexivity |].
  split; [| now intros ->].
  unfold InvalidPackage. now intros [= H].
Qed.

(** ** Runs *)

Lemma exec_required (c : Call) (st : State h) :
  exists ids,
    required (exec h c st) = ids ++ required st /\
    length ids <= (if is_load c then 2 else 0).
Proof.
  destruct c; cbn [exec is_load];
    try (lazymatch goal with |- exists ids, _ /\ length ids <= 0 => idtac end;
         exists []; split; [| cbn; lia]; unfold after;
         unfold getGlobalVariable, pathNormalize, pathExtname, pathResolve, fileExist,
           readFileSync, appendFileSync, writeFile, dotenv, getEnvVariable, highlightSql,
           highlightJson, logInfo, logError, logWarn, log, info, error, warn, logCmdErr,
           bind, call, read, effect, pure_call, ret;
         cbn [fst snd required app]).
  - reflexivity.
  - unfold after. destruct (switch name cases) as [id |] eqn:Hsw.
    + destruct (host_require h id (host st)) as [[v | e] w1] eqn:Hreq.
      * rewrite (load_case_returns h name id st v w1 Hsw Hreq).
        exists [id]. split; [reflexivity | cbn; lia].
      * rewrite (load_case_throws h name id st e w1 Hsw Hreq).
        exists [fallback_path h name w1; id]. split; [reflexivity | cbn; lia].
    + rewrite (load_no_case h name st Hsw).
      exists []. split; [reflexivity | cbn; lia].
  - reflexivity.
  - reflexivity.
  - reflexivity.
  - reflexivity.
  - now destruct (fs_readFileSync h filename (host st)) as [[v | e] w].
  - now destruct (fs_appendFileSync h filename data (host st)) as [[v | e] w].
  - now destruct (fs_writeFile h path data (host st)) as [err w].
  - now destruct (dotenv_config h pathStr (host st)) as [[v | e] w].
  - reflexivity.
  - reflexivity.
  - reflexivity.
  - reflexivity.
  - reflexivity.
  - reflexivity.
  - reflexivity.
  - reflexivity.
  - reflexivity.
  - reflexivity.
  - now destruct (truthy err).
Qed.

End MoreLoadProperties.

Section RunProperties.

Variable h : Host.

(** X6.  Over any sequence of calls the ids handed to [require] only
    accumulate, and they come from the calls of [load] alone, at most
    two for each: a sequence without a call of [load] loads nothing. *)
Theorem only_load_requires (cs : list Call) (st : State h) :
  exists ids,
    required (run h cs st) = ids ++ required st /\
    length ids <= 2 * length (filter is_load cs) /\
    (filter is_load cs = [] -> ids = []).
Proof.
  enough (Hmain : exists ids,
             required (run h cs st) = ids ++ required st /\
             length ids <= 2 * length (filter is_load cs)).
  { destruct Hmain as (ids & Hids & Hlen). exists ids. repeat split; auto.
    intros Hnone. rewrite Hnone in Hlen. cbn in Hlen.
    destruct ids; [reflexivity | cbn in Hlen; lia]. }
  revert st. induction cs as [| c cs IH]; intro st.
  - exists []. split; [reflexivity | cbn; lia].
  - change (run h (c :: cs) st) with (run h cs (exec h c st)).
    destruct (IH (exec h c st)) as (ids & Hids & Hlen).
    destruct (exec_required h c st) as (ids_c & Hc & Hlen_c).
    exists (ids ++ ids_c). split.
    + now rewrite Hids, Hc, app_assoc.
    + rewrite length_app. cbn [filter].
      destruct (is_load c); cbn [length]; lia.
Qed.

(** X7.  The promise [writeFile] returns is settled by the one call of
    the callback: rejected with [err] when [err] is truthy, the [ok()]
    that follows [fail(err)] changing nothing, and fulfilled when [err]
    is falsy.  A later call of the callback cannot change it, and
    [writeFile] itself does not throw. *)
Theorem writeFile_settles_once (path : string) (data : JsValue) (st : State h) :
  let err := fst (fs_writeFile h path data (host st)) in
  exists p,
    fst (writeFile h path data st) = Normal p /\
    writeFile_callback err Pending = Settled p /\
    (truthy err = true -> p = Rejected err) /\
    (truthy err = false -> p = Fulfilled) /\
    (forall err', writeFile_callback err' (Settled p) = Settled p).
Proof.
  intros err. subst err. unfold writeFile, writeFile_callback.
  destruct (fs_writeFile h path data (host st)) as [err w']. cbn [fst].
  exists (if truthy err then Rejected err else Fulfilled).
  split; [reflexivity |].
  split; [now destruct (truthy err) |].
  split; [now intros -> |].
  split; [now intros -> |].
  intros err'. now destruct (truthy err').
Qed.

(** ** Replacing backslashes *)

Lemma replace_backslashes_fixed (s : string) :
  replace_backslashes s = s <-> (forall i, String.get i s <> Some "\"%char).
Proof.
  induction s as [| c s IH]; cbn [replace_backslashes].
  - split; [intros _ i; destruct i; discriminate | reflexivity].
  - split.
    + intros [= Hc Hs] [| i]; cbn.
      * intros [= ->]. discriminate.
      * now apply IH.
    + intros Hget.
      assert (Hc : Ascii.eqb c "\"%char = false).
      { destruct (Ascii.eqb_spec c "\"%char) as [-> | ]; [| reflexivity].
        now contradiction (Hget 0). }
      rewrite Hc. f_equal. apply IH. intro i. exact (Hget (S i)).
Qed.

(** X8.  On ["win32"], [pathNormalize] returns [path.normalize(pathStr)]
    as it is exactly when that string holds no backslash. *)
Theorem pathNormalize_win32_keeps_clean_paths (pathStr : string) (st : State h) :
  process_platform h (host st) = "win32" ->
  fst (pathNormalize h pathStr st) = Normal (path_normalize h pathStr) <->
  (forall i, String.get i (path_normalize h pathStr) <> Some "\"%char).
Proof.
  intros Hp. unfold pathNormalize, bind, read, ret. rewrite Hp. cbn.
  rewrite <- replace_backslashes_fixed.
  split; [now intros [= H] | now intros ->].
Qed.

(** X9.  Replacing the backslashes of a string that went through the
    replacement changes nothing, and replacing them in a concatenation
    is replacing them in its parts. *)
Theorem replace_backslashes_idempotent_and_append (a b : string) :
  replace_backslashes (replace_backslashes a) = replace_backslashes a /\
  replace_backslashes (a ++ b) = (replace_backslashes a ++ replace_backslashes b)%string.
Proof.
  split.
  - induction a as [| c a IH]; cbn; [reflexivity |]. rewrite IH. f_equal.
    destruct (Ascii.eqb c "\"%char) eqn:Hc; [reflexivity | now rewrite Hc].
  - induction a as [| c a IH]; cbn; [reflexivity | now rewrite IH].
Qed.

End RunProperties.

(** ** Runs on the sample hosts *)

(** The root of mariadb under the working directory: what [load]
    returns is the root, found by the [catch] handler. *)
Example load_mariadb_local :
  load mariadb_local_host "mariadb" (init mariadb_local_host []) =
  (Normal (JsObject 2),
   mkState mariadb_local_host node
     ["/srv/app/node_modules/mariadb"]
     ["/srv/app/node_modules/mariadb"; "mariadb/callback"]).
Proof. reflexivity. Qed.

Lemma case_requires_its_name_witness :
  switch "spanner" cases = Some "@google-cloud/spanner" /\
  (("spanner" <> "spanner" -> "spanner" <> "mariadb" ->
    "@google-cloud/spanner" = "spanner") /\
   ("spanner" = "spanner" -> "@google-cloud/spanner" = "@google-cloud/spanner") /\
   ("spanner" = "mariadb" -> "@google-cloud/spanner" = "mariadb/callback")).
Proof.
  split; [reflexivity |].
  apply (case_requires_its_name "spanner" "@google-cloud/spanner"). reflexivity.
Defined.

Lemma fallback_is_built_from_name_witness :
  switch "mariadb" cases = Some "mariadb/callback" /\
  host_require mariadb_local_host "mariadb/callback"
    (host (init mariadb_local_host [])) =
    (Throw (ModuleNotFound "mariadb/callback"), []) /\
  (let root := (process_cwd mariadb_local_host [] ++ "/node_modules/")%string in
   required (after (load mariadb_local_host "mariadb") (init mariadb_local_host [])) =
     path_resolve mariadb_local_host [] (root ++ "mariadb")%string
       :: "mariadb/callback" :: required (init mariadb_local_host []) /\
   ((root ++ "mariadb")%string = (root ++ "mariadb/callback")%string <->
    "mariadb" <> "spanner" /\ "mariadb" <> "mariadb")).
Proof.
  split; [reflexivity |]. split; [reflexivity |].
  apply (fallback_is_built_from_name mariadb_local_host "mariadb" "mariadb/callback"
           (init mariadb_local_host []) (ModuleNotFound "mariadb/callback") []);
    reflexivity.
Defined.

Lemma pathNormalize_win32_keeps_clean_paths_witness :
  process_platform win_host (host (init win_host [])) = "win32" /\
  (fst (pathNormalize win_host "C:/app/src" (init win_host [])) =
     Normal (path_normalize win_host "C:/app/src") <->
   (forall i, String.get i (path_normalize win_host "C:/app/src") <> Some "\"%char)).
Proof.
  split; [reflexivity |].
  apply (pathNormalize_win32_keeps_clean_paths win_host "C:/app/src" (init win_host [])).
  reflexivity.
Defined.

Lemma load_error_identifies_name_witness :
  switch "postgres" cases = None /\
  switch "pgsql" cases = None /\
  (fst (load bare_host "postgres" (init bare_host [])) =
     Throw (JsError "TypeError" ("Invalid Package for PlatformTools.load: " ++ "postgres")) /\
   (fst (load bare_host "postgres" (init bare_host [])) =
    fst (load bare_host "pgsql" (init bare_host ["pg"])) <-> "postgres" = "pgsql")).
Proof.
  split; [reflexivity |]. split; [reflexivity |].
  apply (load_error_identifies_name bare_host "postgres" "pgsql"); reflexivity.
Defined.

(** ** C7 *)

(** C7, the claim as written fails for [dotenv].  [dotenv.config]
    returns an object reporting that the file could not be read;
    [dotenv] returns [undefined]: the object is not passed on, and
    nothing is thrown. *)
Lemma dotenv_drops_config_result :
  dotenv_config reporting_dotenv_host ".env" [] = (Normal (JsObject 9), []) /\
  fst (dotenv reporting_dotenv_host ".env" (init reporting_dotenv_host [])) =
    Normal JsUndefined /\
  fst (dotenv reporting_dotenv_host ".env" (init reporting_dotenv_host [])) <>
    fst (dotenv_config reporting_dotenv_host ".env" []) /\
  (forall e,
     fst (dotenv reporting_dotenv_host ".env" (init reporting_dotenv_host [])) <> Throw e).
Proof. repeat split; discriminate. Qed.
